(** * check_excel.py: the spreadsheet content dumper

    A shallow embedding of [check_excel_content] and of the file
    [check_excel.py] executed as a script, imports included.

    - Standard output is a log with one entry per [print] call; [text]
      gives the characters each entry writes.  Writing to standard output
      is taken to succeed.
    - A Python exception is a value; a statement yields what it printed
      together with either its result or the exception it raised.
    - The file system and [openpyxl.load_workbook] are the two fields of a
      [world]: the loader may hand back any workbook or raise any
      exception, also one outside [Exception] (the interrupt key pressed
      while it runs).
    - The script runs in a [process]: its command-line arguments, its
      environment variables, the modules its imports find and the file
      system.  The interpreter is taken as started, so what an import
      finds no longer depends on the environment variables.
    - Of [openpyxl] the model keeps what the function touches: sheet
      names, lookup by name, the extents and cells of a worksheet, and
      chart sheets, which have a title and nothing else. *)

From Stdlib Require Import ZArith List String Ascii Bool Lia DecimalString
  Permutation.
Import ListNotations.

Local Open Scope Z_scope.
Local Open Scope string_scope.

(** ** Python: exceptions, values, built-ins *)

Module Py.

(** An exception object.  [isinstance_Exception] tells whether its class
    derives from [Exception]; it is [false] for the classes that derive
    from [BaseException] only ([KeyboardInterrupt], [SystemExit],
    [GeneratorExit]).  [exn_str] is what [str(e)] gives. *)
Record exn : Type := mk_exn {
  exn_class : string;
  isinstance_Exception : bool;
  exn_str : string
}.

Definition KeyError (msg : string) : exn :=
  mk_exn "KeyError" true ("'" ++ msg ++ "'").
Definition AttributeError (msg : string) : exn :=
  mk_exn "AttributeError" true msg.
Definition ValueError (msg : string) : exn :=
  mk_exn "ValueError" true msg.
Definition KeyboardInterrupt : exn :=
  mk_exn "KeyboardInterrupt" false "".

(** The outcome of evaluating an expression. *)
Inductive result (A : Type) : Type :=
| Ok (a : A)
| Raise (e : exn).
Arguments Ok {A} a.
Arguments Raise {A} e.

(** The scalar a cell holds.  [VOther] stands for the values whose text is
    produced by their own [__str__] (floats, dates, times); it carries
    that text. *)
Inductive value : Type :=
| VNone
| VStr (s : string)
| VInt (z : Z)
| VBool (b : bool)
| VOther (text : string).

(** [str(n)] for an integer: decimal digits, [-] in front when negative. *)
Definition str_int (z : Z) : string := NilZero.string_of_int (Z.to_int z).

(** [str(v)]. *)
Definition str (v : value) : string :=
  match v with
  | VNone => "None"
  | VStr s => s
  | VInt z => str_int z
  | VBool true => "True"
  | VBool false => "False"
  | VOther text => text
  end.

(** [v is not None]. *)
Definition is_not_None (v : value) : bool :=
  match v with
  | VNone => false
  | _ => true
  end.

(** [range(lo, hi)]: [lo], [lo + 1], ..., [hi - 1]; empty when
    [hi <= lo]. *)
Definition range (lo hi : Z) : list Z :=
  map (fun i => lo + Z.of_nat i) (seq 0 (Z.to_nat (hi - lo))).

(** [sep.join(xs)]. *)
Definition join (sep : string) (xs : list string) : string :=
  String.concat sep xs.

End Py.
Import Py.

(** ** openpyxl: workbooks and sheets *)

Module Openpyxl.

(** A worksheet as the loader hands it over: its title, the extents it
    reports and the value stored at each (row, column). *)
Record Worksheet : Type := mk_Worksheet {
  title : string;
  max_row : Z;
  max_column : Z;
  _cells : Z -> Z -> value
}.

(** A workbook holds worksheets and chart sheets; a chart sheet has a
    title but neither extents nor cells. *)
Inductive sheet : Type :=
| WS (ws : Worksheet)
| CS (chart_title : string).

Definition Workbook : Type := list sheet.

Definition sheet_title (s : sheet) : string :=
  match s with
  | WS ws => title ws
  | CS t => t
  end.

(** [workbook.sheetnames] *)
Definition sheetnames (workbook : Workbook) : list string :=
  map sheet_title workbook.

(** [workbook.worksheets] and [workbook.chartsheets] *)
Definition worksheets (workbook : Workbook) : list Worksheet :=
  flat_map (fun s => match s with WS ws => [ws] | CS _ => [] end) workbook.

Definition chartsheets (workbook : Workbook) : list string :=
  flat_map (fun s => match s with WS _ => [] | CS t => [t] end) workbook.

(** [workbook[key]]: the first sheet with that title among the worksheets
    followed by the chart sheets, [KeyError] when there is none. *)
Definition getitem (workbook : Workbook) (key : string) : result sheet :=
  match find (fun s => String.eqb (sheet_title s) key)
          (map WS (worksheets workbook) ++ map CS (chartsheets workbook))
  with
  | Some s => Ok s
  | None => Raise (KeyError ("Worksheet " ++ key ++ " does not exist."))
  end.

(** [sheet.max_row] *)
Definition get_max_row (s : sheet) : result Z :=
  match s with
  | WS ws => Ok (max_row ws)
  | CS _ =>
      Raise (AttributeError "'Chartsheet' object has no attribute 'max_row'")
  end.

(** [sheet.max_column] *)
Definition get_max_column (s : sheet) : result Z :=
  match s with
  | WS ws => Ok (max_column ws)
  | CS _ =>
      Raise (AttributeError
               "'Chartsheet' object has no attribute 'max_column'")
  end.

(** [sheet.cell(row=row, column=col).value]; indices below 1 are
    refused. *)
Definition cell_value_at (s : sheet) (row col : Z) : result value :=
  match s with
  | WS ws =>
      if (row <? 1)%Z || (col <? 1)%Z
      then Raise (ValueError "Row or column values must be at least 1")
      else Ok (_cells ws row col)
  | CS _ =>
      Raise (AttributeError "'Chartsheet' object has no attribute 'cell'")
  end.

End Openpyxl.
Import Openpyxl.

(** ** The environment of a run *)

(** [os_path_exists] answers [os.path.exists]; [load_workbook] is what
    [openpyxl.load_workbook] does on a path: a workbook, or an exception. *)
Record world : Type := mk_world {
  os_path_exists : string -> bool;
  load_workbook : string -> result Workbook
}.

(** ** Standard output *)

(** One constructor per [print] call of the source, holding the values
    interpolated into its f-string. *)
Inductive printed : Type :=
| NotFound (file_path : string)
| ExcelFile (file_path : string)
| SheetHeader (sheet_name : string)
| MaxRow (n : Z)
| MaxColumn (n : Z)
| RowLine (row : Z) (row_data : list string)
| ErrorMsg (e : exn).

Definition newline : string := String (ascii_of_nat 10) EmptyString.

(** The text each [print] call writes (without the line end [print]
    adds). *)
Definition text (p : printed) : string :=
  match p with
  | NotFound file_path => "文件不存在: " ++ file_path
  | ExcelFile file_path => "Excel 文件: " ++ file_path
  | SheetHeader sheet_name => newline ++ "工作表: " ++ sheet_name
  | MaxRow n => "最大行数: " ++ str_int n
  | MaxColumn n => "最大列数: " ++ str_int n
  | RowLine row row_data =>
      "  行 " ++ str_int row ++ ": " ++ join " | " row_data
  | ErrorMsg e => "读取 Excel 文件时发生错误: " ++ exn_str e
  end.

(** ** Statements: what was printed, and how the statement ended *)

Definition M (A : Type) : Type := list printed * result A.

Definition ret {A : Type} (a : A) : M A := ([], Ok a).

Definition bind {A B : Type} (m : M A) (f : A -> M B) : M B :=
  match m with
  | (out, Ok a) => let (out', r) := f a in ((out ++ out')%list, r)
  | (out, Raise e) => (out, Raise e)
  end.

Definition eval {A : Type} (r : result A) : M A := ([], r).

Definition print (p : printed) : M unit := ([p], Ok tt).

Notation "x <- m ;; k" := (bind m (fun x => k))
  (at level 61, m at next level, right associativity).
Notation "m ;;; k" := (bind m (fun _ => k))
  (at level 61, right associativity).

(** [for x in xs: body], the loop carrying a local [s] that the body
    updates. *)
Fixpoint for_acc {A S : Type} (xs : list A) (body : A -> S -> M S) (s : S)
  : M S :=
  match xs with
  | [] => ret s
  | x :: xs' => s' <- body x s ;; for_acc xs' body s'
  end.

Definition for_ {A : Type} (xs : list A) (body : A -> M unit) : M unit :=
  for_acc xs (fun x _ => body x) tt.

(** [try: body  except Exception as e: handler]: an exception whose class
    does not derive from [Exception] passes through. *)
Definition try_except_Exception {A : Type} (body : M A) (handler : exn -> M A)
  : M A :=
  match body with
  | (out, Ok a) => (out, Ok a)
  | (out, Raise e) =>
      if isinstance_Exception e
      then let (out', r) := handler e in ((out ++ out')%list, r)
      else (out, Raise e)
  end.

(** ** The program *)

(** Line 25: [str(cell_value) if cell_value is not None else "NULL"]. *)
Definition cell_text (cell_value : value) : string :=
  if is_not_None cell_value then str cell_value else "NULL".

(** Lines 22 to 25: the list [row_data] built for one row. *)
Definition build_row_data (sheet : sheet) (row : Z) : M (list string) :=
  max_col <- eval (get_max_column sheet) ;;
  for_acc (range 1 (max_col + 1))
    (fun col row_data =>
       cell_value <- eval (cell_value_at sheet row col) ;;
       ret (row_data ++ [cell_text cell_value])%list)
    [].

(** Lines 21 to 26: the loop over the first rows of a sheet. *)
Definition dump_rows (sheet : sheet) : M unit :=
  max_r <- eval (get_max_row sheet) ;;
  for_ (range 1 (Z.min 7 (max_r + 1)))
    (fun row =>
       row_data <- build_row_data sheet row ;;
       print (RowLine row row_data)).

(** Lines 15 to 26: the body of the loop over the sheet names. *)
Definition dump_sheet (workbook : Workbook) (sheet_name : string) : M unit :=
  sheet <- eval (getitem workbook sheet_name) ;;
  print (SheetHeader sheet_name) ;;;
  max_r <- eval (get_max_row sheet) ;;
  print (MaxRow max_r) ;;;
  max_col <- eval (get_max_column sheet) ;;
  print (MaxColumn max_col) ;;;
  dump_rows sheet.

(** Lines 11 to 26: the body of the [try]. *)
Definition try_body (w : world) (file_path : string) : M unit :=
  workbook <- eval (load_workbook w file_path) ;;
  print (ExcelFile file_path) ;;;
  for_ (sheetnames workbook) (dump_sheet workbook).

(** Lines 5 to 29. *)
Definition check_excel_content (w : world) (file_path : string) : M unit :=
  if negb (os_path_exists w file_path) then
    print (NotFound file_path)
  else
    try_except_Exception (try_body w file_path)
      (fun e => print (ErrorMsg e)).

(** Line 32. *)
Definition excel_path : string := "Assets/ExcelConfigs/Example.xlsx".

(** The process the interpreter has started for the file: the command-line
    arguments in [sys.argv], the environment variables in [os.environ],
    the modules the import system finds, and the file system with the
    loader.  The program can reach all four. *)
Record process : Type := mk_process {
  sys_argv : list string;
  os_environ : list (string * string);
  find_module : string -> bool;
  files : world
}.

Definition ModuleNotFoundError (module_name : string) : exn :=
  mk_exn "ModuleNotFoundError" true ("No module named '" ++ module_name ++ "'").

(** [import module_name]: raises when the module is not found. *)
Definition import_module (pr : process) (module_name : string) : M unit :=
  if find_module pr module_name then ret tt
  else eval (Raise (ModuleNotFoundError module_name)).

(** Lines 1 to 33, the file executed top to bottom with [__name__] bound
    to [name]: the three imports, the [def] of line 5 (which binds the
    function and does nothing else), and the block of lines 31 to 33. *)
Definition script (name : string) (pr : process) : M unit :=
  import_module pr "openpyxl" ;;;
  import_module pr "sys" ;;;
  import_module pr "os" ;;;
  (if String.eqb name "__main__"
   then check_excel_content (files pr) excel_path
   else ret tt).

(** What reaches the terminal: the text of each printed entry. *)
Definition stdout {A : Type} (m : M A) : list string := map text (fst m).

(** ** Reading the output *)

Definition is_row_line (p : printed) : bool :=
  match p with RowLine _ _ => true | _ => false end.

Definition is_sheet_header (p : printed) : bool :=
  match p with SheetHeader _ => true | _ => false end.

(** Entries that belong to the dump of a sheet: header, extents, rows. *)
Definition is_sheet_output (p : printed) : bool :=
  match p with
  | SheetHeader _ | MaxRow _ | MaxColumn _ | RowLine _ _ => true
  | _ => false
  end.

Definition is_error_msg (p : printed) : bool :=
  match p with ErrorMsg _ => true | _ => false end.

(** The row numbers of the row lines, in the order printed. *)
Definition row_numbers (out : list printed) : list Z :=
  flat_map (fun p => match p with RowLine row _ => [row] | _ => [] end) out.

(** Each sheet header with the two entries printed right after it. *)
Fixpoint headers_with_next2 (out : list printed)
  : list (string * list printed) :=
  match out with
  | [] => []
  | SheetHeader sheet_name :: rest =>
      (sheet_name, firstn 2 rest) :: headers_with_next2 rest
  | _ :: rest => headers_with_next2 rest
  end.

(** ** What a worksheet contributes to the output *)

(** The cells of row [row] as line 25 renders them, columns 1 to
    [max_column]. *)
Definition rendered_row (ws : Worksheet) (row : Z) : list string :=
  map (fun col => cell_text (_cells ws row col)) (range 1 (max_column ws + 1)).

(** What lines 16 to 26 print for a worksheet. *)
Definition sheet_lines (ws : Worksheet) : list printed :=
  SheetHeader (title ws) :: MaxRow (max_row ws) :: MaxColumn (max_column ws)
    :: map (fun row => RowLine row (rendered_row ws row))
         (range 1 (Z.min 7 (max_row ws + 1))).

(** ** The workbook of the concrete scenario *)

Definition Sheet1 : Worksheet :=
  mk_Worksheet "Sheet1" 3 2
    (fun row col =>
       match row, col with
       | 1, 1 => VStr "Name"
       | 1, 2 => VStr "Age"
       | 2, 1 => VStr "Alice"
       | 2, 2 => VInt 30
       | _, _ => VNone
       end).

Definition scenario_world : world :=
  mk_world (fun _ => true) (fun _ => Ok [WS Sheet1]).

(** The contents of the row lines, in the order printed. *)
Definition row_contents (out : list printed) : list string :=
  flat_map (fun p => match p with
                     | RowLine _ row_data => [join " | " row_data]
                     | _ => []
                     end) out.

(** ** Other runs used as examples *)

Definition BadZipFile : exn :=
  mk_exn "BadZipFile" true "File is not a zip file".

(** A second worksheet: eight rows, one column, each cell its row number. *)
Definition Data : Worksheet :=
  mk_Worksheet "Data" 8 1 (fun row _ => VInt row).

Definition two_sheet_world : world :=
  mk_world (fun _ => true) (fun _ => Ok [WS Sheet1; WS Data]).

(** Only the path of the script exists. *)
Definition only_example_world : world :=
  mk_world (fun p => String.eqb p excel_path)
    (fun p => if String.eqb p excel_path then Ok [WS Sheet1]
              else Raise BadZipFile).


Definition PermissionError : exn :=
  mk_exn "PermissionError" true "[Errno 13] Permission denied: 'a.xlsx'".

(** No file at all. *)
Definition missing_world : world :=
  mk_world (fun _ => false)
    (fun _ => Raise (mk_exn "FileNotFoundError" true "No such file"))%string.

(** The file is there but is not a spreadsheet. *)
Definition corrupt_world : world :=
  mk_world (fun _ => true) (fun _ => Raise BadZipFile).

(** The file is there but may not be read. *)
Definition locked_world : world :=
  mk_world (fun _ => true) (fun _ => Raise PermissionError).

(** The workbook holds a chart sheet after its worksheet. *)
Definition chart_world : world :=
  mk_world (fun _ => true) (fun _ => Ok [WS Sheet1; CS "Chart1"]).

(** The user interrupts the run while the workbook is loading. *)
Definition interrupted_world : world :=
  mk_world (fun _ => true) (fun _ => Raise KeyboardInterrupt).

(** ** Telling the printed lines apart *)

(** The seven [print] calls of the source. *)
Inductive line_kind : Type :=
| KNotFound | KExcelFile | KSheetHeader | KMaxRow | KMaxColumn | KRowLine
| KErrorMsg.

Definition kind_of (p : printed) : line_kind :=
  match p with
  | NotFound _ => KNotFound
  | ExcelFile _ => KExcelFile
  | SheetHeader _ => KSheetHeader
  | MaxRow _ => KMaxRow
  | MaxColumn _ => KMaxColumn
  | RowLine _ _ => KRowLine
  | ErrorMsg _ => KErrorMsg
  end.

(** ** Worksheets compared *)

(** The worksheet with the text "NULL" typed into every empty cell. *)
Definition fill_null (ws : Worksheet) : Worksheet :=
  mk_Worksheet (title ws) (max_row ws) (max_column ws)
    (fun row col =>
       match _cells ws row col with
       | VNone => VStr "NULL"
       | v => v
       end).

(** [Sheet1] with one more value, far below and right of what it reports
    as its extents. *)
Definition Sheet1_far : Worksheet :=
  mk_Worksheet "Sheet1" 3 2
    (fun row col =>
       if (row =? 9)%Z && (col =? 9)%Z then VStr "hidden"
       else _cells Sheet1 row col).

(** Two worksheets under one title. *)
Definition twin_world : world :=
  mk_world (fun _ => true) (fun _ => Ok [WS Sheet1; WS Sheet1_far]).

(** A chart sheet between two worksheets. *)
Definition chart_between_world : world :=
  mk_world (fun _ => true) (fun _ => Ok [WS Sheet1; CS "Chart1"; WS Data]).

(** Two ways of starting the script: plainly, and with arguments and an
    environment variable naming another file, on a file system where only
    the path of the script exists. *)
Definition plain_process : process :=
  mk_process ["check_excel.py"] [] (fun _ => true) scenario_world.

Definition decorated_process : process :=
  mk_process ["check_excel.py"; "--file"; "Other.xlsx"]
    [("EXCEL_PATH", "Other.xlsx")] (fun _ => true) only_example_world.

(** An interpreter without [openpyxl] installed. *)
Definition bare_process : process :=
  mk_process ["check_excel.py"] []
    (fun m => negb (String.eqb m "openpyxl")) scenario_world.

(** ** Laws of the statement monad *)

Lemma bind_ok {A B : Type} (out : list printed) (a : A) (f : A -> M B) :
  bind (out, Ok a) f = ((out ++ fst (f a))%list, snd (f a)).
Proof. unfold bind. destruct (f a); reflexivity. Qed.

Lemma bind_raise {A B : Type} (out : list printed) (e : exn) (f : A -> M B) :
  bind (out, Raise e) f = (out, Raise e).
Proof. reflexivity. Qed.

Lemma bind_eval_ok {A B : Type} (a : A) (f : A -> M B) :
  bind (eval (Ok a)) f = f a.
Proof. unfold eval. rewrite bind_ok. destruct (f a); reflexivity. Qed.

Lemma bind_print {B : Type} (p : printed) (k : M B) :
  bind (print p) (fun _ => k) = (p :: fst k, snd k).
Proof. unfold print. rewrite bind_ok. reflexivity. Qed.

Lemma bind_ret {A B : Type} (a : A) (f : A -> M B) : bind (ret a) f = f a.
Proof. unfold ret. rewrite bind_ok. destruct (f a); reflexivity. Qed.

(** A loop whose body prints nothing and never raises is a left fold. *)
Lemma for_acc_pure {A S : Type} (g : S -> A -> S) (P : A -> Prop)
    (body : A -> S -> M S) (xs : list A) :
  (forall x s, P x -> body x s = ([], Ok (g s x))) ->
  Forall P xs ->
  forall s, for_acc xs body s = ([], Ok (fold_left g xs s)).
Proof.
  intros Hbody HP. induction HP as [|x xs Hx _ IH]; intro s; simpl.
  - reflexivity.
  - rewrite (Hbody x s Hx), bind_ok, IH. reflexivity.
Qed.

(** A loop whose body never raises prints the bodies' output in order. *)
Lemma for_each_ok {A : Type} (f : A -> list printed) (P : A -> Prop)
    (body : A -> M unit) (xs : list A) :
  (forall x, P x -> body x = (f x, Ok tt)) ->
  Forall P xs ->
  for_ xs body = (flat_map f xs, Ok tt).
Proof.
  intros Hbody HP. unfold for_.
  induction HP as [|x xs Hx _ IH]; simpl.
  - reflexivity.
  - rewrite (Hbody x Hx), bind_ok, IH. reflexivity.
Qed.

(** What a loop raises, its body raised. *)
Lemma for_acc_raise {A S : Type} (Q : exn -> Prop) (body : A -> S -> M S)
    (xs : list A) :
  (forall x s e, In x xs -> snd (body x s) = Raise e -> Q e) ->
  forall s e, snd (for_acc xs body s) = Raise e -> Q e.
Proof.
  induction xs as [|x xs IH]; intros Hbody s e; simpl.
  - discriminate.
  - destruct (body x s) as [o [s'|e']] eqn:E.
    + rewrite bind_ok. simpl. apply IH.
      intros y t e' Hy. apply Hbody. right. exact Hy.
    + rewrite bind_raise. simpl. intro H. inversion H; subst.
      apply (Hbody x s e (or_introl eq_refl)). rewrite E. reflexivity.
Qed.

(** ** [range] *)

Lemma range_bounds (lo hi x : Z) : In x (range lo hi) -> lo <= x < hi.
Proof.
  unfold range. rewrite in_map_iff. intros [i [<- Hi]].
  apply in_seq in Hi. lia.
Qed.

Lemma range_length (lo hi : Z) :
  List.length (range lo hi) = Z.to_nat (hi - lo).
Proof. unfold range. rewrite length_map, length_seq. reflexivity. Qed.

Lemma range_from_1 (hi : Z) :
  range 1 hi = map Z.of_nat (seq 1 (Z.to_nat (hi - 1))).
Proof.
  unfold range. rewrite <- seq_shift, map_map.
  apply map_ext. intro i. lia.
Qed.

(** Line 21 visits the rows 1, 2, ..., min(6, max_row). *)
Lemma range_first_rows (m : Z) :
  range 1 (Z.min 7 (m + 1)) = map Z.of_nat (seq 1 (Z.to_nat (Z.min 6 m))).
Proof.
  rewrite range_from_1. f_equal. f_equal. lia.
Qed.

Lemma range_nth (lo hi : Z) (i : nat) (d : Z) :
  (i < Z.to_nat (hi - lo))%nat -> nth i (range lo hi) d = lo + Z.of_nat i.
Proof.
  intro Hi. unfold range.
  rewrite (nth_indep _ d (lo + Z.of_nat 0)) 
    by (rewrite length_map, length_seq; exact Hi).
  rewrite (map_nth (fun i => lo + Z.of_nat i)), seq_nth by exact Hi.
  reflexivity.
Qed.

(** ** The loops over one worksheet *)

Lemma fold_left_snoc {A B : Type} (f : A -> B) (xs : list A) (acc : list B) :
  fold_left (fun row_data x => (row_data ++ [f x])%list) xs acc
  = (acc ++ map f xs)%list.
Proof.
  revert acc. induction xs as [|x xs IH]; intro acc; simpl.
  - rewrite app_nil_r. reflexivity.
  - rewrite IH, <- app_assoc. reflexivity.
Qed.

Lemma flat_map_singleton {A B : Type} (f : A -> B) (xs : list A) :
  flat_map (fun x => [f x]) xs = map f xs.
Proof.
  induction xs as [|x xs IH]; simpl; [reflexivity | rewrite IH; reflexivity].
Qed.

Section OneWorksheet.

Variable ws : Worksheet.

(** Inside the loops [cell] is never refused: rows and columns start at 1. *)
Lemma cell_value_at_ok (row col : Z) :
  1 <= row -> 1 <= col ->
  cell_value_at (WS ws) row col = Ok (_cells ws row col).
Proof.
  intros Hr Hc. unfold cell_value_at.
  destruct (Z.ltb_spec row 1); [lia|].
  destruct (Z.ltb_spec col 1); [lia|].
  reflexivity.
Qed.

Lemma build_row_data_ws (row : Z) :
  1 <= row ->
  build_row_data (WS ws) row = ([], Ok (rendered_row ws row)).
Proof.
  intro Hr. unfold build_row_data. simpl get_max_column.
  rewrite bind_eval_ok.
  rewrite (for_acc_pure
             (fun row_data col =>
                (row_data ++ [cell_text (_cells ws row col)])%list)
             (fun col => 1 <= col)).
  - rewrite fold_left_snoc. reflexivity.
  - intros col row_data Hc. rewrite cell_value_at_ok by assumption.
    rewrite bind_eval_ok. reflexivity.
  - apply Forall_forall. intros col Hc. apply range_bounds in Hc. lia.
Qed.

Lemma dump_rows_ws :
  dump_rows (WS ws)
  = (map (fun row => RowLine row (rendered_row ws row))
       (range 1 (Z.min 7 (max_row ws + 1))), Ok tt).
Proof.
  unfold dump_rows. simpl get_max_row. rewrite bind_eval_ok.
  rewrite (for_each_ok (fun row => [RowLine row (rendered_row ws row)])
             (fun row => 1 <= row)).
  - rewrite flat_map_singleton. reflexivity.
  - intros row Hr. rewrite build_row_data_ws by assumption.
    rewrite bind_ok. reflexivity.
  - apply Forall_forall. intros row Hr. apply range_bounds in Hr. lia.
Qed.

Lemma dump_sheet_ws (workbook : Workbook) (sheet_name : string) :
  getitem workbook sheet_name = Ok (WS ws) ->
  dump_sheet workbook sheet_name
  = (SheetHeader sheet_name :: MaxRow (max_row ws)
       :: MaxColumn (max_column ws)
       :: map (fun row => RowLine row (rendered_row ws row))
            (range 1 (Z.min 7 (max_row ws + 1))), Ok tt).
Proof.
  intro Hget. unfold dump_sheet. rewrite Hget, bind_eval_ok.
  simpl get_max_row. simpl get_max_column.
  rewrite bind_print, bind_eval_ok, bind_print, bind_eval_ok, bind_print.
  rewrite dump_rows_ws. reflexivity.
Qed.

End OneWorksheet.

(** A chart sheet has its header printed, then reading [max_row] fails. *)
Lemma dump_sheet_cs (workbook : Workbook) (sheet_name t : string) :
  getitem workbook sheet_name = Ok (CS t) ->
  dump_sheet workbook sheet_name
  = ([SheetHeader sheet_name],
     Raise (AttributeError "'Chartsheet' object has no attribute 'max_row'")).
Proof.
  intro Hget. unfold dump_sheet. rewrite Hget, bind_eval_ok.
  rewrite bind_print. reflexivity.
Qed.

(** Whatever the dump of a sheet raises derives from [Exception]. *)
Lemma dump_sheet_raises_Exception (workbook : Workbook) (sheet_name : string)
    (e : exn) :
  snd (dump_sheet workbook sheet_name) = Raise e ->
  isinstance_Exception e = true.
Proof.
  destruct (getitem workbook sheet_name) as [[ws|t]|e'] eqn:Hget.
  - rewrite (dump_sheet_ws _ _ _ Hget). discriminate.
  - rewrite (dump_sheet_cs _ _ _ Hget). simpl. intro H.
    inversion H; subst. reflexivity.
  - unfold dump_sheet. rewrite Hget. unfold eval. rewrite bind_raise.
    simpl. intro H. inversion H; subst.
    unfold getitem in Hget.
    destruct (find _ _); inversion Hget. reflexivity.
Qed.

(** ** Looking sheets up by name *)

(** The lookup goes through the sheets of the workbook, rearranged. *)
Lemma lookup_order_permutation (workbook : Workbook) :
  Permutation (map WS (worksheets workbook) ++ map CS (chartsheets workbook))
    workbook.
Proof.
  induction workbook as [|[ws|t] wb IH]; simpl.
  - constructor.
  - constructor. exact IH.
  - apply Permutation_sym, Permutation_cons_app, Permutation_sym. exact IH.
Qed.

Lemma find_by_title (l : list sheet) (s : sheet) :
  NoDup (map sheet_title l) -> In s l ->
  find (fun s' => String.eqb (sheet_title s') (sheet_title s)) l = Some s.
Proof.
  induction l as [|s0 l IH]; intros Hnd Hin; [contradiction|].
  simpl in *. inversion Hnd as [|? ? Hnotin Hnd']; subst.
  destruct (String.eqb_spec (sheet_title s0) (sheet_title s)) as [Heq|Hne].
  - destruct Hin as [->|Hin]; [reflexivity|].
    exfalso. apply Hnotin. rewrite Heq. apply in_map. exact Hin.
  - destruct Hin as [->|Hin]; [contradiction|].
    apply IH; assumption.
Qed.

(** A name taken from [sheetnames] is always found: line 15 raises no
    [KeyError]. *)
Lemma getitem_sheetname (workbook : Workbook) (sheet_name : string) :
  In sheet_name (sheetnames workbook) ->
  exists s, getitem workbook sheet_name = Ok s /\ sheet_title s = sheet_name.
Proof.
  unfold sheetnames, getitem. intro Hin. apply in_map_iff in Hin.
  destruct Hin as [s0 [Ht Hs0]].
  apply (Permutation_in _ (Permutation_sym (lookup_order_permutation workbook)))
    in Hs0.
  destruct (find _ _) as [s|] eqn:Hf.
  - exists s. split; [reflexivity|].
    apply find_some in Hf. apply String.eqb_eq. tauto.
  - exfalso. apply (find_none _ _ Hf) in Hs0.
    rewrite String.eqb_neq in Hs0. contradiction.
Qed.

(** With distinct titles the sheet found is the sheet that gave the name. *)
Lemma getitem_NoDup (workbook : Workbook) (s : sheet) :
  NoDup (sheetnames workbook) -> In s workbook ->
  getitem workbook (sheet_title s) = Ok s.
Proof.
  unfold sheetnames, getitem. intros Hnd Hin.
  pose proof (Permutation_sym (lookup_order_permutation workbook)) as Hperm.
  rewrite find_by_title; [reflexivity | | exact (Permutation_in _ Hperm Hin)].
  apply (Permutation_NoDup (Permutation_map sheet_title Hperm) Hnd).
Qed.

(** ** Reading the dump of a worksheet *)

Lemma row_numbers_row_lines (f : Z -> list string) (rows : list Z) :
  row_numbers (map (fun row => RowLine row (f row)) rows) = rows.
Proof.
  unfold row_numbers.
  induction rows as [|r rows IH]; simpl; [reflexivity | rewrite IH; reflexivity].
Qed.

Lemma filter_row_lines (f : Z -> list string) (rows : list Z) :
  filter is_row_line (map (fun row => RowLine row (f row)) rows)
  = map (fun row => RowLine row (f row)) rows.
Proof.
  induction rows as [|r rows IH]; simpl; [reflexivity | rewrite IH; reflexivity].
Qed.

Lemma row_line_in_dump_sheet (workbook : Workbook) (sheet_name : string)
    (ws : Worksheet) (row : Z) (row_data : list string) :
  getitem workbook sheet_name = Ok (WS ws) ->
  In (RowLine row row_data) (fst (dump_sheet workbook sheet_name)) ->
  1 <= row <= Z.min 6 (max_row ws) /\ row_data = rendered_row ws row.
Proof.
  intros Hget. rewrite (dump_sheet_ws _ _ _ Hget). simpl.
  intros [H|[H|[H|H]]]; try discriminate.
  apply in_map_iff in H. destruct H as [r [Heq Hr]].
  inversion Heq; subst. apply range_bounds in Hr. split; [lia | reflexivity].
Qed.

Lemma rendered_row_length (ws : Worksheet) (row : Z) :
  List.length (rendered_row ws row) = Z.to_nat (max_column ws).
Proof.
  unfold rendered_row. rewrite length_map, range_length. f_equal. lia.
Qed.

(** ** The loop over the sheets *)

Lemma for_sheets_ws (workbook : Workbook) (l : list Worksheet) :
  (forall ws, In ws l -> getitem workbook (title ws) = Ok (WS ws)) ->
  for_ (map title l) (dump_sheet workbook) = (flat_map sheet_lines l, Ok tt).
Proof.
  unfold for_. induction l as [|ws l IH]; intro Hget; simpl.
  - reflexivity.
  - rewrite (dump_sheet_ws ws) by (apply Hget; left; reflexivity).
    rewrite bind_ok, IH by (intros ws' Hin; apply Hget; right; exact Hin).
    reflexivity.
Qed.

(** The whole dump of a workbook made of worksheets with distinct titles. *)
Lemma try_body_worksheets (w : world) (file_path : string)
    (wss : list Worksheet) :
  load_workbook w file_path = Ok (map WS wss) ->
  NoDup (map title wss) ->
  try_body w file_path
  = (ExcelFile file_path :: flat_map sheet_lines wss, Ok tt).
Proof.
  intros Hload Hnd. unfold try_body. rewrite Hload, bind_eval_ok, bind_print.
  assert (Hnames : sheetnames (map WS wss) = map title wss).
  { unfold sheetnames. rewrite map_map. reflexivity. }
  rewrite Hnames, for_sheets_ws; [reflexivity|].
  intros ws Hin.
  apply (getitem_NoDup (map WS wss) (WS ws)).
  - rewrite Hnames. exact Hnd.
  - apply in_map. exact Hin.
Qed.

(** A loop that ends normally had every body end normally. *)
Lemma for_ok_each {A : Type} (body : A -> M unit) (xs : list A) :
  snd (for_ xs body) = Ok tt ->
  forall x, In x xs -> snd (body x) = Ok tt.
Proof.
  unfold for_. induction xs as [|x xs IH]; simpl; intros Hok y Hy.
  - contradiction.
  - destruct (body x) as [o [[]|e]] eqn:E.
    + rewrite bind_ok in Hok. simpl in Hok.
      destruct Hy as [<-|Hy]; [rewrite E; reflexivity | apply IH; assumption].
    + rewrite bind_raise in Hok. discriminate.
Qed.

(** A workbook with distinct titles that is dumped without an exception
    holds worksheets only. *)
Lemma try_body_ok_worksheets (w : world) (file_path : string)
    (workbook : Workbook) :
  load_workbook w file_path = Ok workbook ->
  NoDup (sheetnames workbook) ->
  snd (try_body w file_path) = Ok tt ->
  workbook = map WS (worksheets workbook).
Proof.
  intros Hload Hnd Hok. unfold try_body in Hok.
  rewrite Hload, bind_eval_ok, bind_print in Hok. simpl in Hok.
  pose proof (for_ok_each _ _ Hok) as Heach.
  assert (Hall : forall s, In s workbook -> exists ws, s = WS ws).
  { intros s Hin. destruct s as [ws|t]; [exists ws; reflexivity|].
    exfalso.
    specialize (Heach (sheet_title (CS t)) (in_map _ _ _ Hin)).
    rewrite (dump_sheet_cs workbook _ t) in Heach
      by (apply getitem_NoDup; assumption).
    discriminate. }
  clear - Hall. induction workbook as [|s wb IH]; [reflexivity|].
  destruct (Hall s (or_introl eq_refl)) as [ws ->]. simpl.
  f_equal. apply IH. intros s' Hs'. apply Hall. right. exact Hs'.
Qed.

Lemma headers_with_next2_rows (f : Z -> list string) (rows : list Z)
    (rest : list printed) :
  headers_with_next2 (map (fun row => RowLine row (f row)) rows ++ rest)
  = headers_with_next2 rest.
Proof.
  induction rows as [|r rows IH]; simpl; [reflexivity | exact IH].
Qed.

Lemma headers_with_next2_sheets (wss : list Worksheet) :
  headers_with_next2 (flat_map sheet_lines wss)
  = map (fun ws => (title ws,
                    [MaxRow (max_row ws); MaxColumn (max_column ws)])) wss.
Proof.
  induction wss as [|ws wss IH]; [reflexivity|].
  simpl. rewrite headers_with_next2_rows, IH. reflexivity.
Qed.

Lemma filter_header_rows (f : Z -> list string) (rows : list Z) :
  filter is_sheet_header (map (fun row => RowLine row (f row)) rows) = [].
Proof.
  induction rows as [|r rows IH]; simpl; [reflexivity | exact IH].
Qed.

Lemma filter_header_sheets (wss : list Worksheet) :
  filter is_sheet_header (flat_map sheet_lines wss)
  = map (fun ws => SheetHeader (title ws)) wss.
Proof.
  induction wss as [|ws wss IH]; [reflexivity|].
  simpl. rewrite filter_app, filter_header_rows, IH. reflexivity.
Qed.

(** Once the file exists, the function is the [try] statement. *)
Lemma check_existing (w : world) (file_path : string) :
  os_path_exists w file_path = true ->
  check_excel_content w file_path
  = try_except_Exception (try_body w file_path)
      (fun e => print (ErrorMsg e)).
Proof. intro H. unfold check_excel_content. rewrite H. reflexivity. Qed.

(** Below the loader nothing raises outside [Exception]. *)
Lemma try_body_raises (w : world) (file_path : string) (e : exn) :
  snd (try_body w file_path) = Raise e ->
  load_workbook w file_path = Raise e \/ isinstance_Exception e = true.
Proof.
  unfold try_body.
  destruct (load_workbook w file_path) as [workbook|e'].
  - rewrite bind_eval_ok, bind_print. simpl. intro H. right.
    revert H. unfold for_.
    apply (for_acc_raise (fun e => isinstance_Exception e = true)).
    intros x s e0 _. apply dump_sheet_raises_Exception.
  - unfold eval. rewrite bind_raise. simpl. intro H. left.
    inversion H; subst. reflexivity.
Qed.

(** ** Runs on concrete workbooks *)

(** Eight rows: the first six are printed. *)
Example data_sheet_rows :
  row_numbers (fst (dump_sheet [WS Sheet1; WS Data] "Data")) = [1; 2; 3; 4; 5; 6]
  /\ stdout (dump_rows (WS Data))
     = ["  行 1: 1"; "  行 2: 2"; "  行 3: 3"; "  行 4: 4"; "  行 5: 5";
        "  行 6: 6"].
Proof. split; reflexivity. Qed.

(** A chart sheet stops the dump after its header; what was printed before
    stays, the error message follows, and the function returns. *)
Example chart_sheet_run :
  stdout (check_excel_content chart_world "a.xlsx")
  = [ "Excel 文件: a.xlsx";
      newline ++ "工作表: Sheet1";
      "最大行数: 3";
      "最大列数: 2";
      "  行 1: Name | Age";
      "  行 2: Alice | 30";
      "  行 3: NULL | NULL";
      newline ++ "工作表: Chart1";
      "读取 Excel 文件时发生错误: 'Chartsheet' object has no attribute 'max_row'" ]
  /\ snd (check_excel_content chart_world "a.xlsx") = Ok tt.
Proof. split; reflexivity. Qed.

(** Without [openpyxl] line 1 raises and nothing is printed. *)
Example missing_openpyxl_run :
  script "__main__" bare_process
  = ([], Raise (ModuleNotFoundError "openpyxl")).
Proof. reflexivity. Qed.

(** Imported as a module, the file checks nothing. *)
Example imported_as_module :
  script "check_excel" plain_process = ([], Ok tt).
Proof. reflexivity. Qed.

(** ** The properties of the dumper *)

(** C1: for a dumped worksheet the row lines printed are those of rows
    1, 2, ..., min(6, max_row), in ascending order; so min(6, max_row) of
    them: max_row when max_row < 6, and 6 when max_row >= 6. *)
Theorem rows_printed_first_six (workbook : Workbook) (sheet_name : string)
    (ws : Worksheet) :
  getitem workbook sheet_name = Ok (WS ws) ->
  0 <= max_row ws ->
  let out := fst (dump_sheet workbook sheet_name) in
  row_numbers out = map Z.of_nat (seq 1 (Z.to_nat (Z.min 6 (max_row ws))))
  /\ Z.of_nat (List.length (filter is_row_line out)) = Z.min 6 (max_row ws)
  /\ (max_row ws < 6 ->
      Z.of_nat (List.length (filter is_row_line out)) = max_row ws)
  /\ (6 <= max_row ws -> List.length (filter is_row_line out) = 6%nat).
Proof.
  intros Hget Hpos out.
  assert (Hrows : row_numbers out
                  = map Z.of_nat (seq 1 (Z.to_nat (Z.min 6 (max_row ws))))).
  { subst out. rewrite (dump_sheet_ws _ _ _ Hget). simpl fst.
    change (row_numbers ?l) with (flat_map
      (fun p => match p with RowLine row _ => [row] | _ => [] end) l).
    simpl flat_map.
    change (flat_map _ ?l) with (row_numbers l).
    rewrite row_numbers_row_lines. apply range_first_rows. }
  assert (Hlen : List.length (filter is_row_line out)
                 = Z.to_nat (Z.min 6 (max_row ws))).
  { subst out. rewrite (dump_sheet_ws _ _ _ Hget). simpl fst.
    simpl filter. rewrite filter_row_lines, length_map, range_length.
    f_equal. lia. }
  split; [exact Hrows|]. rewrite Hlen. repeat split; lia.
Qed.

Lemma rows_printed_first_six_witness :
  let out := fst (dump_sheet [WS Sheet1] "Sheet1") in
  row_numbers out = map Z.of_nat (seq 1 (Z.to_nat (Z.min 6 (max_row Sheet1))))
  /\ Z.of_nat (List.length (filter is_row_line out)) = Z.min 6 (max_row Sheet1)
  /\ (max_row Sheet1 < 6 ->
      Z.of_nat (List.length (filter is_row_line out)) = max_row Sheet1)
  /\ (6 <= max_row Sheet1 -> List.length (filter is_row_line out) = 6%nat).
Proof.
  apply (rows_printed_first_six [WS Sheet1] "Sheet1" Sheet1).
  - reflexivity.
  - simpl. lia.
Defined.

(** C2: in a printed row, an empty cell (None) is rendered as "NULL" and
    any other cell as the string form of its value, column by column, and
    the line printed joins the rendered cells with " | ". *)
Theorem cells_rendered_and_joined (workbook : Workbook) (sheet_name : string)
    (ws : Worksheet) (row : Z) (row_data : list string) :
  getitem workbook sheet_name = Ok (WS ws) ->
  In (RowLine row row_data) (fst (dump_sheet workbook sheet_name)) ->
  Forall2 (fun col rendered =>
             match _cells ws row col with
             | VNone => rendered = "NULL"
             | v => rendered = str v
             end)
    (range 1 (max_column ws + 1)) row_data
  /\ text (RowLine row row_data)
     = "  行 " ++ str_int row ++ ": " ++ String.concat " | " row_data.
Proof.
  intros Hget Hin.
  destruct (row_line_in_dump_sheet _ _ _ _ _ Hget Hin) as [_ ->].
  split; [|reflexivity].
  unfold rendered_row.
  induction (range 1 (max_column ws + 1)) as [|col cols IH]; simpl;
    constructor; [|exact IH].
  unfold cell_text. destruct (_cells ws row col); reflexivity.
Qed.

Lemma cells_rendered_and_joined_witness :
  Forall2 (fun col rendered =>
             match _cells Sheet1 2 col with
             | VNone => rendered = "NULL"
             | v => rendered = str v
             end)
    (range 1 (max_column Sheet1 + 1)) ["Alice"; "30"]
  /\ text (RowLine 2 ["Alice"; "30"])
     = "  行 " ++ str_int 2 ++ ": " ++ String.concat " | " ["Alice"; "30"].
Proof.
  apply (cells_rendered_and_joined [WS Sheet1] "Sheet1" Sheet1 2
           ["Alice"; "30"]).
  - reflexivity.
  - simpl. right. right. right. right. left. reflexivity.
Defined.

(** C10: a printed row line holds exactly max_column rendered cells, the
    one at position i being the cell of column i + 1; a row whose cells are
    all empty still has max_column entries, each "NULL". *)
Theorem row_line_has_max_column_cells (workbook : Workbook)
    (sheet_name : string) (ws : Worksheet) (row : Z)
    (row_data : list string) :
  getitem workbook sheet_name = Ok (WS ws) ->
  In (RowLine row row_data) (fst (dump_sheet workbook sheet_name)) ->
  List.length row_data = Z.to_nat (max_column ws)
  /\ (0 <= max_column ws -> Z.of_nat (List.length row_data) = max_column ws)
  /\ (forall i : nat, (i < Z.to_nat (max_column ws))%nat ->
        nth i row_data "" = cell_text (_cells ws row (Z.of_nat i + 1)))
  /\ ((forall col, 1 <= col <= max_column ws -> _cells ws row col = VNone) ->
      row_data = repeat "NULL" (Z.to_nat (max_column ws))).
Proof.
  intros Hget Hin.
  destruct (row_line_in_dump_sheet _ _ _ _ _ Hget Hin) as [_ ->].
  pose proof (rendered_row_length ws row) as Hlen.
  split; [exact Hlen|]. split; [rewrite Hlen; lia|]. split.
  - intros i Hi. unfold rendered_row.
    rewrite (nth_indep _ "" (cell_text (_cells ws row 0)))
      by (fold (rendered_row ws row); rewrite Hlen; exact Hi).
    rewrite (map_nth (fun col => cell_text (_cells ws row col))).
    rewrite range_nth by (replace (max_column ws + 1 - 1) with (max_column ws)
                            by lia; exact Hi).
    f_equal. f_equal. lia.
  - intro Hnone. unfold rendered_row.
    replace (Z.to_nat (max_column ws))
      with (List.length (range 1 (max_column ws + 1)))
      by (rewrite range_length; f_equal; lia).
    assert (Hb : forall col, In col (range 1 (max_column ws + 1)) ->
                             1 <= col <= max_column ws)
      by (intros col Hc; apply range_bounds in Hc; lia).
    induction (range 1 (max_column ws + 1)) as [|col cols IH]; simpl;
      [reflexivity|].
    rewrite Hnone by (apply Hb; left; reflexivity).
    f_equal. apply IH. intros c Hc. apply Hb. right. exact Hc.
Qed.

Lemma row_line_has_max_column_cells_witness :
  List.length ["NULL"; "NULL"] = Z.to_nat (max_column Sheet1)
  /\ (0 <= max_column Sheet1 ->
      Z.of_nat (List.length ["NULL"; "NULL"]) = max_column Sheet1)
  /\ (forall i : nat, (i < Z.to_nat (max_column Sheet1))%nat ->
        nth i ["NULL"; "NULL"] ""
        = cell_text (_cells Sheet1 3 (Z.of_nat i + 1)))
  /\ ((forall col, 1 <= col <= max_column Sheet1 ->
         _cells Sheet1 3 col = VNone) ->
      ["NULL"; "NULL"] = repeat "NULL" (Z.to_nat (max_column Sheet1))).
Proof.
  apply (row_line_has_max_column_cells [WS Sheet1] "Sheet1" Sheet1 3
           ["NULL"; "NULL"]).
  - reflexivity.
  - simpl. right. right. right. right. right. left. reflexivity.
Defined.

(** C3: for a path that does not exist the function prints the not-found
    message and nothing else (no sheet header, no extents, no row line),
    and returns normally. *)
Theorem missing_file_reported (w : world) (file_path : string) :
  os_path_exists w file_path = false ->
  check_excel_content w file_path = ([NotFound file_path], Ok tt)
  /\ stdout (check_excel_content w file_path) = ["文件不存在: " ++ file_path]
  /\ filter is_sheet_output (fst (check_excel_content w file_path)) = [].
Proof.
  intro H. unfold stdout, check_excel_content. rewrite H. simpl.
  repeat split.
Qed.

Lemma missing_file_reported_witness :
  check_excel_content missing_world "nowhere.xlsx"
  = ([NotFound "nowhere.xlsx"], Ok tt)
  /\ stdout (check_excel_content missing_world "nowhere.xlsx")
     = ["文件不存在: " ++ "nowhere.xlsx"]
  /\ filter is_sheet_output
       (fst (check_excel_content missing_world "nowhere.xlsx")) = [].
Proof.
  apply (missing_file_reported missing_world "nowhere.xlsx"). reflexivity.
Defined.

(** C4: when loading or reading the workbook fails (the file exists, the
    [try] body raises an error [e], an exception deriving from [Exception]),
    the error is caught: after what was printed before the failure the
    function prints the message ending in the error's own text, and it
    returns normally. *)
Theorem failure_caught_and_reported (w : world) (file_path : string)
    (e : exn) :
  os_path_exists w file_path = true ->
  snd (try_body w file_path) = Raise e ->
  (load_workbook w file_path = Raise e -> isinstance_Exception e = true) ->
  check_excel_content w file_path
  = ((fst (try_body w file_path) ++ [ErrorMsg e])%list, Ok tt)
  /\ text (ErrorMsg e) = "读取 Excel 文件时发生错误: " ++ exn_str e.
Proof.
  intros Hex Hraise Hload. split; [|reflexivity].
  assert (Hc : isinstance_Exception e = true).
  { destruct (try_body_raises _ _ _ Hraise) as [H|H]; [exact (Hload H) | exact H]. }
  rewrite (check_existing _ _ Hex). unfold try_except_Exception.
  destruct (try_body w file_path) as [out r]. simpl in *. subst r.
  rewrite Hc. reflexivity.
Qed.

Lemma failure_caught_and_reported_witness :
  check_excel_content locked_world "a.xlsx"
  = ((fst (try_body locked_world "a.xlsx") ++ [ErrorMsg PermissionError])%list,
     Ok tt)
  /\ text (ErrorMsg PermissionError)
     = "读取 Excel 文件时发生错误: " ++ exn_str PermissionError.
Proof.
  apply (failure_caught_and_reported locked_world "a.xlsx" PermissionError).
  - reflexivity.
  - reflexivity.
  - intros _. reflexivity.
Defined.

(** C5: when the file exists and loading it as a workbook fails with an
    error, exactly one line is printed, the error message, and no part of
    a sheet dump (no sheet header, no extents, no row line). *)
Theorem load_failure_single_message (w : world) (file_path : string)
    (e : exn) :
  os_path_exists w file_path = true ->
  load_workbook w file_path = Raise e ->
  isinstance_Exception e = true ->
  check_excel_content w file_path = ([ErrorMsg e], Ok tt)
  /\ stdout (check_excel_content w file_path)
     = ["读取 Excel 文件时发生错误: " ++ exn_str e]
  /\ filter is_sheet_output (fst (check_excel_content w file_path)) = [].
Proof.
  intros Hex Hload Hc.
  assert (H : check_excel_content w file_path = ([ErrorMsg e], Ok tt)).
  { rewrite (check_existing _ _ Hex). unfold try_body.
    rewrite Hload. unfold eval. rewrite bind_raise.
    unfold try_except_Exception. rewrite Hc. reflexivity. }
  unfold stdout. rewrite H. repeat split.
Qed.

Lemma load_failure_single_message_witness :
  check_excel_content corrupt_world "a.xlsx" = ([ErrorMsg BadZipFile], Ok tt)
  /\ stdout (check_excel_content corrupt_world "a.xlsx")
     = ["读取 Excel 文件时发生错误: " ++ exn_str BadZipFile]
  /\ filter is_sheet_output (fst (check_excel_content corrupt_world "a.xlsx"))
     = [].
Proof.
  apply (load_failure_single_message corrupt_world "a.xlsx" BadZipFile);
    reflexivity.
Defined.

(** C6: for a workbook with distinct sheet titles that loads and is dumped
    without an exception, every sheet is a worksheet and the output holds
    exactly one sheet header per sheet, in workbook order, carrying the
    sheet's name and directly followed by the line of its max_row and the
    line of its max_column. *)
Theorem one_header_per_sheet (w : world) (file_path : string)
    (workbook : Workbook) :
  os_path_exists w file_path = true ->
  load_workbook w file_path = Ok workbook ->
  NoDup (sheetnames workbook) ->
  snd (try_body w file_path) = Ok tt ->
  let out := fst (check_excel_content w file_path) in
  workbook = map WS (worksheets workbook)
  /\ snd (check_excel_content w file_path) = Ok tt
  /\ filter is_sheet_header out = map SheetHeader (sheetnames workbook)
  /\ List.length (filter is_sheet_header out) = List.length workbook
  /\ headers_with_next2 out
     = map (fun ws => (title ws,
                       [MaxRow (max_row ws); MaxColumn (max_column ws)]))
         (worksheets workbook).
Proof.
  intros Hex Hload Hnd Hok out.
  pose proof (try_body_ok_worksheets _ _ _ Hload Hnd Hok) as Hws.
  set (wss := worksheets workbook) in *.
  assert (Hnames : sheetnames workbook = map title wss).
  { rewrite Hws at 1. unfold sheetnames. rewrite map_map. reflexivity. }
  assert (Hrun : check_excel_content w file_path
                 = (ExcelFile file_path :: flat_map sheet_lines wss, Ok tt)).
  { rewrite (check_existing _ _ Hex).
    rewrite (try_body_worksheets w file_path wss);
      [reflexivity | rewrite <- Hws; exact Hload | rewrite <- Hnames; exact Hnd]. }
  subst out. rewrite Hrun. simpl fst. simpl snd.
  assert (Hf : filter is_sheet_header (ExcelFile file_path :: flat_map sheet_lines wss)
               = map SheetHeader (sheetnames workbook)).
  { simpl. rewrite filter_header_sheets, Hnames, map_map. reflexivity. }
  split; [exact Hws|]. split; [reflexivity|]. split; [exact Hf|]. split.
  - rewrite Hf. unfold sheetnames. rewrite !length_map. reflexivity.
  - simpl. apply headers_with_next2_sheets.
Qed.

Lemma one_header_per_sheet_witness :
  let out := fst (check_excel_content two_sheet_world "a.xlsx") in
  [WS Sheet1; WS Data] = map WS (worksheets [WS Sheet1; WS Data])
  /\ snd (check_excel_content two_sheet_world "a.xlsx") = Ok tt
  /\ filter is_sheet_header out
     = map SheetHeader (sheetnames [WS Sheet1; WS Data])
  /\ List.length (filter is_sheet_header out)
     = List.length [WS Sheet1; WS Data]
  /\ headers_with_next2 out
     = map (fun ws => (title ws,
                       [MaxRow (max_row ws); MaxColumn (max_column ws)]))
         (worksheets [WS Sheet1; WS Data]).
Proof.
  apply (one_header_per_sheet two_sheet_world "a.xlsx" [WS Sheet1; WS Data]).
  - reflexivity.
  - reflexivity.
  - simpl. constructor.
    + simpl. intros [H|[]]. discriminate H.
    + constructor; [intros [] | constructor].
  - vm_compute. reflexivity.
Defined.

(** C7: for the workbook with the single sheet "Sheet1" of 3 rows and 2
    columns holding Name, Age / Alice, 30 / None, None, the output has the
    lines "最大行数: 3" and "最大列数: 2", and the three rows printed read
    "Name | Age", "Alice | 30" and "NULL | NULL", in that order. *)
Theorem concrete_scenario (file_path : string) :
  stdout (check_excel_content scenario_world file_path)
  = [ "Excel 文件: " ++ file_path;
      newline ++ "工作表: Sheet1";
      "最大行数: 3";
      "最大列数: 2";
      "  行 1: Name | Age";
      "  行 2: Alice | 30";
      "  行 3: NULL | NULL" ]
  /\ row_contents (fst (check_excel_content scenario_world file_path))
     = ["Name | Age"; "Alice | 30"; "NULL | NULL"]
  /\ snd (check_excel_content scenario_world file_path) = Ok tt.
Proof. repeat split. Qed.

(** C8: run as a script, the program inspects the one path written in
    the source and nothing else of its surroundings.  Two processes that
    find the same three imported modules and agree on that one path
    behave alike, whatever their command-line arguments, their environment
    variables and the rest of their file systems.  And the path is
    inspected: with the modules found, the run is [check_excel_content] on
    that path, so a missing file is reported under that path, a loaded
    workbook has that path on the first line, and a load error is the only
    line. *)
Theorem script_checks_hard_coded_path (pr pr' : process) :
  (forall m, In m ["openpyxl"; "sys"; "os"] ->
             find_module pr' m = find_module pr m) ->
  os_path_exists (files pr') excel_path
  = os_path_exists (files pr) excel_path ->
  load_workbook (files pr') excel_path = load_workbook (files pr) excel_path ->
  script "__main__" pr' = script "__main__" pr
  /\ ((forall m, In m ["openpyxl"; "sys"; "os"] -> find_module pr m = true) ->
      script "__main__" pr = check_excel_content (files pr) excel_path
      /\ excel_path = "Assets/ExcelConfigs/Example.xlsx"
      /\ (os_path_exists (files pr) excel_path = false ->
          script "__main__" pr = ([NotFound excel_path], Ok tt))
      /\ (os_path_exists (files pr) excel_path = true ->
          (forall workbook,
             load_workbook (files pr) excel_path = Ok workbook ->
             hd_error (fst (script "__main__" pr))
             = Some (ExcelFile excel_path))
          /\ (forall e,
                load_workbook (files pr) excel_path = Raise e ->
                isinstance_Exception e = true ->
                script "__main__" pr = ([ErrorMsg e], Ok tt)))).
Proof.
  intros Hmod Hex Hload. split.
  - unfold script, import_module.
    rewrite !Hmod by (simpl; tauto).
    unfold check_excel_content, try_body. rewrite Hex, Hload. reflexivity.
  - intro Hfound.
    assert (Hrun : script "__main__" pr
                   = check_excel_content (files pr) excel_path).
    { unfold script, import_module. rewrite !Hfound by (simpl; tauto).
      rewrite !bind_ret. reflexivity. }
    rewrite Hrun. split; [reflexivity|]. split; [reflexivity|]. split.
    + intro Hmissing. unfold check_excel_content. rewrite Hmissing.
      reflexivity.
    + intro Hthere. rewrite (check_existing _ _ Hthere). split.
      * intros workbook Hwb. unfold try_body.
        rewrite Hwb, bind_eval_ok, bind_print. unfold try_except_Exception.
        destruct (snd (for_ _ _)) as [a|e]; [reflexivity|].
        destruct (isinstance_Exception e); reflexivity.
      * intros e He Hc. unfold try_body. rewrite He. unfold eval.
        rewrite bind_raise. unfold try_except_Exception. rewrite Hc.
        reflexivity.
Qed.

Lemma script_checks_hard_coded_path_witness :
  script "__main__" decorated_process = script "__main__" plain_process
  /\ ((forall m, In m ["openpyxl"; "sys"; "os"] ->
                 find_module plain_process m = true) ->
      script "__main__" plain_process
      = check_excel_content (files plain_process) excel_path
      /\ excel_path = "Assets/ExcelConfigs/Example.xlsx"
      /\ (os_path_exists (files plain_process) excel_path = false ->
          script "__main__" plain_process = ([NotFound excel_path], Ok tt))
      /\ (os_path_exists (files plain_process) excel_path = true ->
          (forall workbook,
             load_workbook (files plain_process) excel_path = Ok workbook ->
             hd_error (fst (script "__main__" plain_process))
             = Some (ExcelFile excel_path))
          /\ (forall e,
                load_workbook (files plain_process) excel_path = Raise e ->
                isinstance_Exception e = true ->
                script "__main__" plain_process = ([ErrorMsg e], Ok tt)))).
Proof.
  apply (script_checks_hard_coded_path plain_process decorated_process).
  - intros m _. reflexivity.
  - reflexivity.
  - reflexivity.
Defined.





(** ** More on loops *)

(** A loop prints what its body printed for the elements it reached; it
    ends normally only when it reached them all. *)
Lemma for_output {A : Type} (body : A -> M unit) (xs : list A) :
  exists k : nat,
    fst (for_ xs body) = flat_map (fun x => fst (body x)) (firstn k xs)
    /\ (snd (for_ xs body) = Ok tt -> k = List.length xs).
Proof.
  unfold for_. induction xs as [|x xs [k [Hout Hk]]].
  - exists 0%nat. split; reflexivity.
  - simpl. destruct (body x) as [o [[]|e]] eqn:E.
    + exists (S k). rewrite bind_ok. simpl. rewrite E, Hout. simpl.
      split; [reflexivity|]. intro H. rewrite (Hk H). reflexivity.
    + exists 1%nat. rewrite bind_raise. simpl. rewrite E. simpl.
      rewrite app_nil_r. split; [reflexivity | discriminate].
Qed.

Lemma bind_assoc {A B C : Type} (m : M A) (f : A -> M B) (g : B -> M C) :
  bind (bind m f) g = bind m (fun a => bind (f a) g).
Proof.
  destruct m as [o [a|e]]; [|reflexivity].
  unfold bind at 2 3. destruct (f a) as [o1 [b|e1]].
  - unfold bind. destruct (g b) as [o2 r]. rewrite app_assoc. reflexivity.
  - reflexivity.
Qed.

(** A loop over [xs ++ ys] is the loop over [xs], then the loop over
    [ys]. *)
Lemma for_app {A : Type} (body : A -> M unit) (xs ys : list A) :
  for_ (xs ++ ys) body = for_ xs body ;;; for_ ys body.
Proof.
  unfold for_. induction xs as [|x xs IH]; cbn [app for_acc].
  - rewrite bind_ret. reflexivity.
  - rewrite bind_assoc. destruct (body x) as [o [[]|e]]; [|reflexivity].
    rewrite !bind_ok. cbv beta. rewrite IH. reflexivity.
Qed.

(** ** The shape of every run *)

(** The three ways lines 15 to 26 can go for one sheet name. *)
Lemma dump_sheet_cases (workbook : Workbook) (sheet_name : string) :
  (exists ws,
     getitem workbook sheet_name = Ok (WS ws)
     /\ dump_sheet workbook sheet_name
        = (SheetHeader sheet_name :: MaxRow (max_row ws)
             :: MaxColumn (max_column ws)
             :: map (fun row => RowLine row (rendered_row ws row))
                  (range 1 (Z.min 7 (max_row ws + 1))), Ok tt))
  \/ (exists t,
        getitem workbook sheet_name = Ok (CS t)
        /\ dump_sheet workbook sheet_name
           = ([SheetHeader sheet_name],
              Raise (AttributeError
                       "'Chartsheet' object has no attribute 'max_row'")))
  \/ (exists e,
        getitem workbook sheet_name = Raise e
        /\ dump_sheet workbook sheet_name = ([], Raise e)).
Proof.
  destruct (getitem workbook sheet_name) as [[ws|t]|e] eqn:Hget.
  - left. exists ws. split; [reflexivity | apply dump_sheet_ws; exact Hget].
  - right. left. exists t.
    split; [reflexivity | apply (dump_sheet_cs _ _ t); exact Hget].
  - right. right. exists e. split; [reflexivity|].
    unfold dump_sheet. rewrite Hget. reflexivity.
Qed.

Lemma filter_rows_none (q : printed -> bool) (f : Z -> list string)
    (rows : list Z) :
  (forall row row_data, q (RowLine row row_data) = false) ->
  filter q (map (fun row => RowLine row (f row)) rows) = [].
Proof.
  intro Hq. induction rows as [|r rows IH]; simpl;
    [reflexivity | rewrite Hq; exact IH].
Qed.

Lemma filter_flat_map_nil {A B : Type} (q : B -> bool) (f : A -> list B)
    (xs : list A) :
  (forall x, filter q (f x) = []) -> filter q (flat_map f xs) = [].
Proof.
  intro Hq. induction xs as [|x xs IH]; simpl;
    [reflexivity | rewrite filter_app, Hq, IH; reflexivity].
Qed.

(** The dump of a sheet prints no error message. *)
Lemma dump_sheet_no_error_msg (workbook : Workbook) (sheet_name : string) :
  filter is_error_msg (fst (dump_sheet workbook sheet_name)) = [].
Proof.
  destruct (dump_sheet_cases workbook sheet_name)
    as [[ws [_ ->]]|[[t [_ ->]]|[e [_ ->]]]]; simpl; try reflexivity.
  apply filter_rows_none. reflexivity.
Qed.

(** For a name of the workbook the dump of the sheet prints one header,
    with that name. *)
Lemma dump_sheet_header (workbook : Workbook) (sheet_name : string) :
  In sheet_name (sheetnames workbook) ->
  filter is_sheet_header (fst (dump_sheet workbook sheet_name))
  = [SheetHeader sheet_name].
Proof.
  intro Hin. destruct (getitem_sheetname _ _ Hin) as [s [Hget _]].
  destruct (dump_sheet_cases workbook sheet_name)
    as [[ws [_ ->]]|[[t [_ ->]]|[e [He _]]]]; simpl.
  - rewrite filter_rows_none; reflexivity.
  - reflexivity.
  - rewrite Hget in He. discriminate.
Qed.

(** The dump of a sheet prints at most six row lines, and none without a
    header. *)
Lemma dump_sheet_row_bound (workbook : Workbook) (sheet_name : string) :
  (List.length (filter is_row_line (fst (dump_sheet workbook sheet_name)))
   <= 6 * List.length
            (filter is_sheet_header (fst (dump_sheet workbook sheet_name))))%nat.
Proof.
  destruct (dump_sheet_cases workbook sheet_name)
    as [[ws [_ ->]]|[[t [_ ->]]|[e [_ ->]]]]; simpl; try lia.
  rewrite filter_row_lines, filter_rows_none by reflexivity.
  rewrite length_map, range_length. simpl. lia.
Qed.

(** With the workbook loaded, the [try] body is line 12 and the loop. *)
Lemma try_body_loaded (w : world) (file_path : string) (workbook : Workbook) :
  load_workbook w file_path = Ok workbook ->
  try_body w file_path
  = (ExcelFile file_path
       :: fst (for_ (sheetnames workbook) (dump_sheet workbook)),
     snd (for_ (sheetnames workbook) (dump_sheet workbook))).
Proof.
  intro Hload. unfold try_body. rewrite Hload, bind_eval_ok, bind_print.
  reflexivity.
Qed.

Lemma try_body_not_loaded (w : world) (file_path : string) (e : exn) :
  load_workbook w file_path = Raise e ->
  try_body w file_path = ([], Raise e).
Proof. intro Hload. unfold try_body. rewrite Hload. reflexivity. Qed.

(** What the [try] statement makes of its body. *)
Lemma check_output (w : world) (file_path : string) :
  os_path_exists w file_path = true ->
  check_excel_content w file_path
  = match snd (try_body w file_path) with
    | Ok a => (fst (try_body w file_path), Ok a)
    | Raise e =>
        if isinstance_Exception e
        then ((fst (try_body w file_path) ++ [ErrorMsg e])%list, Ok tt)
        else (fst (try_body w file_path), Raise e)
    end.
Proof.
  intro Hex. rewrite (check_existing _ _ Hex). unfold try_except_Exception.
  destruct (try_body w file_path) as [out [a|e]]; simpl; [reflexivity|].
  destruct (isinstance_Exception e); reflexivity.
Qed.

Lemma try_body_no_error_msg (w : world) (file_path : string) :
  filter is_error_msg (fst (try_body w file_path)) = [].
Proof.
  destruct (load_workbook w file_path) as [workbook|e] eqn:Hload.
  - rewrite (try_body_loaded _ _ _ Hload). simpl.
    destruct (for_output (dump_sheet workbook) (sheetnames workbook))
      as [k [-> _]].
    apply filter_flat_map_nil. intro x. apply dump_sheet_no_error_msg.
  - rewrite (try_body_not_loaded _ _ _ Hload). reflexivity.
Qed.

Lemma row_bound_flat_map (workbook : Workbook) (names : list string) :
  (List.length (filter is_row_line
             (flat_map (fun x => fst (dump_sheet workbook x)) names))
   <= 6 * List.length (filter is_sheet_header
             (flat_map (fun x => fst (dump_sheet workbook x)) names)))%nat.
Proof.
  induction names as [|x names IH]; simpl; [lia|].
  rewrite !filter_app, !length_app.
  pose proof (dump_sheet_row_bound workbook x). lia.
Qed.

Lemma try_body_row_bound (w : world) (file_path : string) :
  (List.length (filter is_row_line (fst (try_body w file_path)))
   <= 6 * List.length
            (filter is_sheet_header (fst (try_body w file_path))))%nat.
Proof.
  destruct (load_workbook w file_path) as [workbook|e] eqn:Hload.
  - rewrite (try_body_loaded _ _ _ Hload). simpl.
    destruct (for_output (dump_sheet workbook) (sheetnames workbook))
      as [k [-> _]].
    apply row_bound_flat_map.
  - rewrite (try_body_not_loaded _ _ _ Hload). simpl. lia.
Qed.

Lemma headers_of_prefix (workbook : Workbook) (names : list string) (k : nat) :
  (forall x, In x names -> In x (sheetnames workbook)) ->
  filter is_sheet_header
    (flat_map (fun x => fst (dump_sheet workbook x)) (firstn k names))
  = map SheetHeader (firstn k names).
Proof.
  revert k. induction names as [|x names IH]; intros k Hin.
  - rewrite firstn_nil. reflexivity.
  - destruct k as [|k]; [reflexivity|]. simpl.
    rewrite filter_app, dump_sheet_header by (apply Hin; left; reflexivity).
    rewrite IH by (intros y Hy; apply Hin; right; exact Hy). reflexivity.
Qed.

(** ** Further properties of the dumper *)

(** X1: once the workbook is loaded, the first line printed names the file,
    and the sheet headers printed are the sheet names of the workbook in
    order, up to the sheet where the dump stopped; when the dump raises
    nothing they are all there. *)
Theorem headers_follow_sheetnames (w : world) (file_path : string)
    (workbook : Workbook) :
  os_path_exists w file_path = true ->
  load_workbook w file_path = Ok workbook ->
  let out := fst (check_excel_content w file_path) in
  hd_error out = Some (ExcelFile file_path)
  /\ exists k : nat,
       filter is_sheet_header out
       = map SheetHeader (firstn k (sheetnames workbook))
       /\ (snd (try_body w file_path) = Ok tt -> k = List.length workbook).
Proof.
  intros Hex Hload out.
  destruct (for_output (dump_sheet workbook) (sheetnames workbook))
    as [k [Hout Hk]].
  assert (Hbody : filter is_sheet_header (fst (try_body w file_path))
                  = map SheetHeader (firstn k (sheetnames workbook))).
  { rewrite (try_body_loaded _ _ _ Hload). simpl. rewrite Hout.
    apply headers_of_prefix. intros x Hx. exact Hx. }
  assert (Hhd : hd_error (fst (try_body w file_path))
                = Some (ExcelFile file_path)).
  { rewrite (try_body_loaded _ _ _ Hload). reflexivity. }
  assert (Hlen : snd (try_body w file_path) = Ok tt -> k = List.length workbook).
  { rewrite (try_body_loaded _ _ _ Hload). simpl. intro H.
    rewrite (Hk H). unfold sheetnames. apply length_map. }
  subst out. rewrite (check_output _ _ Hex).
  destruct (snd (try_body w file_path)) as [a|e].
  - simpl. split; [exact Hhd|]. exists k. split; [exact Hbody | exact Hlen].
  - destruct (isinstance_Exception e); simpl.
    + split.
      * destruct (fst (try_body w file_path)); [discriminate Hhd | exact Hhd].
      * exists k. rewrite filter_app, Hbody. simpl. rewrite app_nil_r.
        split; [reflexivity | exact Hlen].
    + split; [exact Hhd|]. exists k. split; [exact Hbody | exact Hlen].
Qed.

Lemma headers_follow_sheetnames_witness :
  let out := fst (check_excel_content chart_world "a.xlsx") in
  hd_error out = Some (ExcelFile "a.xlsx")
  /\ exists k : nat,
       filter is_sheet_header out
       = map SheetHeader (firstn k (sheetnames [WS Sheet1; CS "Chart1"]))
       /\ (snd (try_body chart_world "a.xlsx") = Ok tt ->
           k = List.length [WS Sheet1; CS "Chart1"]).
Proof.
  apply (headers_follow_sheetnames chart_world "a.xlsx"
           [WS Sheet1; CS "Chart1"]); reflexivity.
Defined.

(** X2: in every run the error message of line 29 is printed at most once,
    and when it is printed it is the last line, it reports the exception
    the [try] body raised, and nothing before it is an error message. *)
Theorem error_message_is_last (w : world) (file_path : string) :
  let out := fst (check_excel_content w file_path) in
  filter is_error_msg out = []
  \/ exists pre e,
       out = (pre ++ [ErrorMsg e])%list
       /\ filter is_error_msg pre = []
       /\ snd (try_body w file_path) = Raise e
       /\ snd (check_excel_content w file_path) = Ok tt.
Proof.
  intro out. subst out.
  destruct (os_path_exists w file_path) eqn:Hex.
  - rewrite (check_output _ _ Hex).
    pose proof (try_body_no_error_msg w file_path) as Hbody.
    destruct (snd (try_body w file_path)) as [a|e] eqn:Hr.
    + left. exact Hbody.
    + destruct (isinstance_Exception e).
      * right. exists (fst (try_body w file_path)), e. simpl.
        repeat split. exact Hbody.
      * left. exact Hbody.
  - left. unfold check_excel_content. rewrite Hex. reflexivity.
Qed.

(** X3: an exception that leaves the function does not derive from
    [Exception]: a caller has nothing of that kind to catch. *)
Theorem escaping_exception_not_an_Exception (w : world) (file_path : string)
    (e : exn) :
  snd (check_excel_content w file_path) = Raise e ->
  isinstance_Exception e = false.
Proof.
  destruct (os_path_exists w file_path) eqn:Hex.
  - rewrite (check_output _ _ Hex).
    destruct (snd (try_body w file_path)) as [a|e'] eqn:Hr;
      [discriminate|].
    destruct (isinstance_Exception e') eqn:Hc; [discriminate|].
    simpl. intro H. inversion H; subst e'. exact Hc.
  - unfold check_excel_content. rewrite Hex. discriminate.
Qed.

Lemma escaping_exception_not_an_Exception_witness :
  isinstance_Exception KeyboardInterrupt = false.
Proof.
  apply (escaping_exception_not_an_Exception interrupted_world "a.xlsx"
           KeyboardInterrupt).
  reflexivity.
Defined.

(** X4: in every run there are at most six row lines per sheet header
    printed: the output grows with the number of sheets, not with their
    size. *)
Theorem at_most_six_rows_per_header (w : world) (file_path : string) :
  let out := fst (check_excel_content w file_path) in
  (List.length (filter is_row_line out)
   <= 6 * List.length (filter is_sheet_header out))%nat.
Proof.
  intro out. subst out.
  destruct (os_path_exists w file_path) eqn:Hex.
  - rewrite (check_output _ _ Hex).
    pose proof (try_body_row_bound w file_path) as Hbody.
    destruct (snd (try_body w file_path)) as [a|e]; [exact Hbody|].
    destruct (isinstance_Exception e); [|exact Hbody].
    simpl fst. rewrite !filter_app, !length_app. simpl. lia.
  - unfold check_excel_content. rewrite Hex. simpl. lia.
Qed.


(** Without chart sheets, whatever the lookup finds is a worksheet. *)
Lemma getitem_worksheet (workbook : Workbook) (sheet_name : string)
    (s : sheet) :
  chartsheets workbook = [] ->
  getitem workbook sheet_name = Ok s ->
  exists ws, s = WS ws.
Proof.
  unfold getitem. intros Hcs. rewrite Hcs. simpl. rewrite app_nil_r.
  destruct (find _ _) as [s'|] eqn:Hf; [|discriminate].
  intro H. inversion H; subst s'. apply find_some in Hf.
  destruct Hf as [Hin _]. apply in_map_iff in Hin.
  destruct Hin as [ws [<- _]]. exists ws. reflexivity.
Qed.

(** X5: a workbook without chart sheets is dumped to the end, also when
    sheets share a title: the function returns normally, prints no error
    message, and prints one header per sheet name, in order. *)
Theorem dump_without_chart_sheets_completes (w : world) (file_path : string)
    (workbook : Workbook) :
  os_path_exists w file_path = true ->
  load_workbook w file_path = Ok workbook ->
  chartsheets workbook = [] ->
  let out := fst (check_excel_content w file_path) in
  snd (check_excel_content w file_path) = Ok tt
  /\ filter is_error_msg out = []
  /\ filter is_sheet_header out = map SheetHeader (sheetnames workbook).
Proof.
  intros Hex Hload Hcs out.
  assert (Hloop : for_ (sheetnames workbook) (dump_sheet workbook)
                  = (flat_map (fun x => fst (dump_sheet workbook x))
                       (sheetnames workbook), Ok tt)).
  { apply (for_each_ok _ (fun x => In x (sheetnames workbook))).
    - intros x Hx. destruct (getitem_sheetname _ _ Hx) as [s [Hget _]].
      destruct (getitem_worksheet _ _ _ Hcs Hget) as [ws ->].
      rewrite (dump_sheet_ws ws _ _ Hget). reflexivity.
    - apply Forall_forall. intros x Hx. exact Hx. }
  assert (Hbody : try_body w file_path
                  = (ExcelFile file_path
                       :: flat_map (fun x => fst (dump_sheet workbook x))
                            (sheetnames workbook), Ok tt)).
  { rewrite (try_body_loaded _ _ _ Hload), Hloop. reflexivity. }
  subst out. rewrite (check_output _ _ Hex), Hbody. simpl.
  split; [reflexivity|]. split.
  - apply filter_flat_map_nil. intro x. apply dump_sheet_no_error_msg.
  - rewrite <- (firstn_all (sheetnames workbook)) at 1 2.
    apply headers_of_prefix. intros x Hx. exact Hx.
Qed.

Lemma dump_without_chart_sheets_completes_witness :
  let out := fst (check_excel_content twin_world "a.xlsx") in
  snd (check_excel_content twin_world "a.xlsx") = Ok tt
  /\ filter is_error_msg out = []
  /\ filter is_sheet_header out
     = map SheetHeader (sheetnames [WS Sheet1; WS Sheet1_far]).
Proof.
  apply (dump_without_chart_sheets_completes twin_world "a.xlsx"
           [WS Sheet1; WS Sheet1_far]); reflexivity.
Defined.

(** X6: of a worksheet only the cells of rows 1 to min(6, max_row) and
    columns 1 to max_column are read: two worksheets with the same extents
    that agree on those cells give the same row lines. *)
Theorem cells_outside_window_not_read (ws ws' : Worksheet) :
  max_row ws = max_row ws' ->
  max_column ws = max_column ws' ->
  (forall row col,
     1 <= row <= 6 -> row <= max_row ws -> 1 <= col <= max_column ws ->
     _cells ws row col = _cells ws' row col) ->
  dump_rows (WS ws) = dump_rows (WS ws').
Proof.
  intros Hr Hc Hcells. rewrite !dump_rows_ws, <- Hr. f_equal.
  apply map_ext_in. intros row Hrow. apply range_bounds in Hrow.
  f_equal. unfold rendered_row. rewrite <- Hc.
  apply map_ext_in. intros col Hcol. apply range_bounds in Hcol.
  rewrite Hcells by lia. reflexivity.
Qed.

Lemma cells_outside_window_not_read_witness :
  dump_rows (WS Sheet1) = dump_rows (WS Sheet1_far).
Proof.
  apply (cells_outside_window_not_read Sheet1 Sheet1_far).
  - reflexivity.
  - reflexivity.
  - intros row col Hrow _ _. unfold Sheet1_far. cbn [_cells].
    destruct (Z.eqb_spec row 9) as [H9|_]; [lia | reflexivity].
Defined.

(** X7: the row lines do not tell an empty cell from a cell holding the
    text "NULL": typing "NULL" into every empty cell of a worksheet
    changes nothing in what is printed for its rows. *)
Theorem null_text_prints_as_empty (ws : Worksheet) :
  dump_rows (WS (fill_null ws)) = dump_rows (WS ws).
Proof.
  rewrite !dump_rows_ws. cbn [fill_null max_row]. f_equal.
  apply map_ext. intro row. f_equal. unfold rendered_row.
  cbn [fill_null max_column _cells].
  apply map_ext. intro col. destruct (_cells ws row col); reflexivity.
Qed.

(** X8: in a workbook with distinct titles the first chart sheet ends the
    dump: the worksheets before it are dumped in full, the header of the
    chart sheet is printed, then the error message about the missing
    [max_row]; no sheet after it is printed and the function returns
    normally. *)
Theorem chart_sheet_stops_dump (w : world) (file_path : string)
    (wss : list Worksheet) (t : string) (rest : Workbook) :
  os_path_exists w file_path = true ->
  load_workbook w file_path = Ok (map WS wss ++ CS t :: rest)%list ->
  NoDup (sheetnames (map WS wss ++ CS t :: rest)%list) ->
  check_excel_content w file_path
  = ((ExcelFile file_path :: flat_map sheet_lines wss)
       ++ [SheetHeader t;
           ErrorMsg (AttributeError
                       "'Chartsheet' object has no attribute 'max_row'")],
     Ok tt)%list.
Proof.
  intros Hex Hload Hnd.
  set (workbook := (map WS wss ++ CS t :: rest)%list) in *.
  assert (Hnames : sheetnames workbook
                   = (map title wss ++ t :: sheetnames rest)%list).
  { unfold workbook, sheetnames. rewrite map_app, map_map. reflexivity. }
  assert (Hloop : for_ (sheetnames workbook) (dump_sheet workbook)
                  = ((flat_map sheet_lines wss ++ [SheetHeader t])%list,
                     Raise (AttributeError
                        "'Chartsheet' object has no attribute 'max_row'"))).
  { rewrite Hnames, for_app, for_sheets_ws.
    - rewrite bind_ok. unfold for_. cbn [for_acc].
      rewrite (dump_sheet_cs workbook t t).
      + rewrite bind_raise. reflexivity.
      + apply (getitem_NoDup workbook (CS t) Hnd).
        unfold workbook. apply in_or_app. right. left. reflexivity.
    - intros ws Hin. apply (getitem_NoDup workbook (WS ws) Hnd).
      unfold workbook. apply in_or_app. left. apply in_map. exact Hin. }
  rewrite (check_output _ _ Hex), (try_body_loaded _ _ _ Hload), Hloop.
  simpl. rewrite <- app_assoc. reflexivity.
Qed.

Lemma chart_sheet_stops_dump_witness :
  check_excel_content chart_between_world "a.xlsx"
  = ((ExcelFile "a.xlsx" :: flat_map sheet_lines [Sheet1])
       ++ [SheetHeader "Chart1";
           ErrorMsg (AttributeError
                       "'Chartsheet' object has no attribute 'max_row'")],
     Ok tt)%list.
Proof.
  apply (chart_sheet_stops_dump chart_between_world "a.xlsx"
           [Sheet1] "Chart1" [WS Data]).
  - reflexivity.
  - reflexivity.
  - simpl. constructor.
    + simpl. intros [H|[H|[]]]; discriminate H.
    + constructor.
      * simpl. intros [H|[]]. discriminate H.
      * constructor; [intros [] | constructor].
Defined.

(** X9: the text of a printed line tells which of the seven [print] calls
    wrote it: lines with the same text come from the same call. *)
Theorem text_tells_kind (p q : printed) :
  text p = text q -> kind_of p = kind_of q.
Proof.
  destruct p, q; unfold text, newline; simpl; intro H;
    solve [reflexivity | discriminate H].
Qed.

Lemma text_tells_kind_witness :
  kind_of (RowLine 1 ["a | b"]) = kind_of (RowLine 1 ["a"; "b"]).
Proof.
  apply (text_tells_kind (RowLine 1 ["a | b"]) (RowLine 1 ["a"; "b"])).
  reflexivity.
Defined.
